(** * The [promote] command of the kargo CLI

    A shallow embedding of [promotionOptions.validate], [promotionOptions.run]
    and the [RunE] closure of [NewCommand] (package [promote]), followed by
    the properties of the command that the specification states.

    Go values are modelled as follows.
    - A string is a [string]; the test for the empty string is
      [String.eqb s EmptyString].
    - A nillable pointer or interface value is an [option]; dereferencing
      [None] panics.
    - An [error] is an [option error_value]: [None] is the nil error.
    - Standard output ([o.IOStreams.Out]) and the sequence of remote calls
      issued are the two components of the state [World] threaded through
      the [Go] monad, whose results are either a value or a panic. *)

From Stdlib Require Import String Ascii List Bool.
Import ListNotations.

Local Open Scope string_scope.
Local Open Scope list_scope.

(** ** Characters that cannot be written inside a literal *)

Definition dquote : ascii := ascii_of_nat 34.
Definition backslash : ascii := ascii_of_nat 92.
Definition newline : string := String (ascii_of_nat 10) EmptyString.

(** ** Error values *)

Module Errors.

(** The shapes of error the command builds or receives:
    - [Errorf msg]: [errors.Errorf] of package [github.com/pkg/errors],
      with the message already formatted;
    - [WithMessage cause msg]: the result of [errors.Wrap cause msg];
    - [joinError errs]: the result of [errors.Join] of the standard
      library on the non-nil errors [errs];
    - [Foreign descr]: an error made by a collaborator (the transport,
      the remote service, the printer factory). *)
#[warnings="-register-all"] Inductive error_value : Type :=
| Errorf (msg : string)
| WithMessage (cause : error_value) (msg : string)
| joinError (errs : list error_value)
| Foreign (descr : string).

(** The Go interface type [error]. *)
Definition error : Type := option error_value.

(** [errors.Wrap]: nil stays nil, anything else is annotated. *)
Definition Wrap (err : error) (message : string) : error :=
  match err with
  | None => None
  | Some e => Some (WithMessage e message)
  end.

(** The non-nil members of a slice of errors, in order. *)
Fixpoint nonNil (errs : list error) : list error_value :=
  match errs with
  | [] => []
  | None :: rest => nonNil rest
  | Some e :: rest => e :: nonNil rest
  end.

(** [errors.Join] of the standard library: nil when every argument is
    nil, otherwise one error holding the non-nil arguments in order. *)
Definition Join (errs : list error) : error :=
  match nonNil errs with
  | [] => None
  | e :: es => Some (joinError (e :: es))
  end.

End Errors.
Import Errors.

(** ** Messages of the remote service *)

Module Proto.

(** [Name] is a [*string] in the generated code (the subscribers branch
    reads it as [*p.Metadata.Name]). *)
Record ObjectMeta : Type := { Name : option string }.

Record Promotion : Type := { Metadata : option ObjectMeta }.

Record PromoteStageRequest : Type := {
  stageReqProject : string;
  stageReqFreight : string;
  stageReqFreightAlias : string;
  stageReqStage : string
}.

Record PromoteSubscribersRequest : Type := {
  subsReqProject : string;
  subsReqFreight : string;
  subsReqFreightAlias : string;
  subsReqStage : string
}.

Record PromoteStageResponse : Type := { Promotion_ : option Promotion }.

Record PromoteSubscribersResponse : Type := {
  Promotions : list (option Promotion)
}.

(** [connect.Response]: the message is reached through the pointer
    field [Msg]. *)
Record Response (A : Type) : Type := { Msg : option A }.
Arguments Msg {A} _.
Arguments Build_Response {A} _.

(** Modelled from the spec: the generated accessors of package
    [pkg/api/service/v1alpha1] are not among the sources. They are the
    nil-safe getter chains that the single-stage branch is said to use:
    called on a nil receiver, or finding a nil field, each returns the
    zero value of its result type. *)
Definition GetPromotion (x : option PromoteStageResponse) : option Promotion :=
  match x with
  | Some m => Promotion_ m
  | None => None
  end.

Definition GetPromotions (x : option PromoteSubscribersResponse)
  : list (option Promotion) :=
  match x with
  | Some m => Promotions m
  | None => []
  end.

Definition GetMetadata (x : option Promotion) : option ObjectMeta :=
  match x with
  | Some p => Metadata p
  | None => None
  end.

Definition GetName (x : option ObjectMeta) : string :=
  match x with
  | Some {| Name := Some n |} => n
  | _ => EmptyString
  end.

End Proto.
Import Proto.

(** ** Effects: output, remote calls and panics *)

Module Effects.

(** A remote call, as recorded when it is issued. *)
Inductive Call : Type :=
| CallPromoteStage (req : PromoteStageRequest)
| CallPromoteSubscribers (req : PromoteSubscribersRequest).

(** [Out] holds every byte written to [o.IOStreams.Out] so far and
    [RPCs] every remote call issued so far, oldest first. *)
Record World : Type := { Out : string; RPCs : list Call }.

Inductive Completion (A : Type) : Type :=
| Done (a : A)
| Panic.
Arguments Done {A} _.
Arguments Panic {A}.

Definition Go (A : Type) : Type := World -> World * Completion A.

Definition ret {A} (a : A) : Go A := fun w => (w, Done a).

Definition bind {A B} (m : Go A) (k : A -> Go B) : Go B :=
  fun w =>
    match m w with
    | (w', Done a) => k a w'
    | (w', Panic) => (w', Panic)
    end.

(** A run-time panic: the function is left at once. *)
Definition panic {A} : Go A := fun w => (w, Panic).

(** [*p], and field selection through [p]. *)
Definition deref {A} (p : option A) : Go A :=
  match p with
  | Some a => ret a
  | None => panic
  end.

(** Bytes are appended to the output stream; the stream's own (count,
    error) result is ignored, as the command ignores it. *)
Definition write (bytes : string) : Go unit :=
  fun w => ({| Out := Out w ++ bytes; RPCs := RPCs w |}, Done tt).

(** A remote call is logged and answers [answer]. *)
Definition remote {A} (c : Call) (answer : A) : Go A :=
  fun w => ({| Out := Out w; RPCs := RPCs w ++ [c] |}, Done answer).

(** [for _, x := range xs { body x }] *)
Fixpoint forRange {A} (xs : list A) (body : A -> Go unit) : Go unit :=
  match xs with
  | [] => ret tt
  | x :: rest => bind (body x) (fun _ => forRange rest body)
  end.

End Effects.
Import Effects.

Declare Scope go_scope.
Delimit Scope go_scope with go.
Notation "x <- m ;; k" := (bind m (fun x => k))
  (at level 61, m at next level, right associativity) : go_scope.
Notation "m ;;; k" := (bind m (fun _ => k))
  (at level 61, right associativity) : go_scope.
Local Open Scope go_scope.

(** ** The command *)

Module Promote.

(** [genericclioptions.PrintFlags], of which the command reads
    [OutputFormat] (a [*string]). *)
Record PrintFlagsT : Type := { OutputFormat : option string }.

(** [option.Option], embedded in [promotionOptions]. Its [IOStreams.Out]
    is the [Out] component of the [World]. *)
Record OptionT : Type := {
  Project : string;
  PrintFlags : PrintFlagsT
}.

(** The flag names of package [option], which the messages of [validate]
    are built from. The package is not among the sources, so the names
    are a parameter of the model. *)
Record FlagNames : Type := {
  ProjectFlag : string;
  FreightFlag : string;
  FreightAliasFlag : string;
  StageFlag : string;
  SubscribersOfFlag : string
}.

(** [k8s.io/utils/ptr.Deref]. *)
Definition ptr_Deref {A} (p : option A) (def : A) : A :=
  match p with
  | Some a => a
  | None => def
  end.

Definition isEmpty (s : string) : bool := String.eqb s EmptyString.

Section Command.

(** [config.CLIConfig], and the Kubernetes form of a promotion that
    [typesv1alpha1.FromPromotionProto] returns: both opaque here. *)
Variables CLIConfig KubePromotion : Type.

Record promotionOptions : Type := {
  Option_ : OptionT;
  Config : CLIConfig;
  FreightName : string;
  FreightAlias : string;
  Stage : string;
  SubscribersOf : string
}.

(** The remote service as the command sees it. A call answers with a
    response and an error, either of which may be nil; what a canceled
    or expired context does is part of that answer. *)
Record Client : Type := {
  PromoteStage :
    PromoteStageRequest ->
    option (Response PromoteStageResponse) * error;
  PromoteSubscribers :
    PromoteSubscribersRequest ->
    option (Response PromoteSubscribersResponse) * error
}.

(** A printer made by [PrintFlags.ToPrinter]. [PrintObj printed obj]
    gives the bytes the printer writes for [obj] and the error it
    returns, when [printed] are the objects this printer was handed
    before, oldest first: a printer may keep state between its calls
    (a YAML printer writes a separator before every object but the
    first). *)
Record Printer : Type := {
  PrintObj : list KubePromotion -> KubePromotion -> string * error
}.

(** Everything the command reaches outside its own source file. *)
Record Collaborators : Type := {
  flags : FlagNames;
  (** the verb [%q] of package [fmt] applied to a string *)
  quote : string -> string;
  GetClientFromConfig : CLIConfig -> OptionT -> Client + error_value;
  ToPrinter : PrintFlagsT -> Printer + error_value;
  FromPromotionProto : option Promotion -> KubePromotion
}.

Variable env : Collaborators.

(** The line that [fmt.Fprintf] writes for the format
    [Promotion Created: %q] followed by a newline. *)
Definition promotionCreated (name : string) : string :=
  "Promotion Created: " ++ quote env name ++ newline.

(** The three messages of [validate]. *)
Definition projectRequired : error_value :=
  Errorf (ProjectFlag (flags env) ++ " is required").

Definition freightRequired : error_value :=
  Errorf ("either " ++ FreightFlag (flags env) ++ " or "
          ++ FreightAliasFlag (flags env) ++ " is required").

Definition selectorRequired : error_value :=
  Errorf ("either " ++ StageFlag (flags env) ++ " or "
          ++ SubscribersOfFlag (flags env) ++ " is required").

(** [errs] after the three tests of [validate]: each test appends its
    error to the slice or leaves the slice as it is. *)
Definition validateErrs (o : promotionOptions) : list error :=
  let errs := [] in
  let errs :=
    if isEmpty (Project (Option_ o))
    then errs ++ [Some projectRequired] else errs in
  let errs :=
    if isEmpty (FreightName o) && isEmpty (FreightAlias o)
    then errs ++ [Some freightRequired] else errs in
  let errs :=
    if isEmpty (Stage o) && isEmpty (SubscribersOf o)
    then errs ++ [Some selectorRequired] else errs in
  errs.

Definition validate (o : promotionOptions) : error :=
  Join (validateErrs o).

Definition plainOutput (o : promotionOptions) : bool :=
  isEmpty (ptr_Deref (OutputFormat (PrintFlags (Option_ o))) EmptyString).

Definition stageRequest (o : promotionOptions) : PromoteStageRequest :=
  {| stageReqProject := Project (Option_ o);
     stageReqFreight := FreightName o;
     stageReqFreightAlias := FreightAlias o;
     stageReqStage := Stage o |}.

Definition subscribersRequest (o : promotionOptions)
  : PromoteSubscribersRequest :=
  {| subsReqProject := Project (Option_ o);
     subsReqFreight := FreightName o;
     subsReqFreightAlias := FreightAlias o;
     subsReqStage := SubscribersOf o |}.

(** [_ = printer.PrintObj(obj, o.IOStreams.Out)]: the bytes go to the
    stream and the error is dropped. *)
Definition printObj (printer : Printer) (printed : list KubePromotion)
           (obj : KubePromotion) : Go unit :=
  write (fst (PrintObj printer printed obj)).

(** The single-stage branch from the test of [err] to its end. *)
Definition stageOutput (o : promotionOptions)
           (res : option (Response PromoteStageResponse)) (err : error)
  : Go error :=
  match err with
  | Some _ => ret (Wrap err "promote stage")
  | None =>
      if plainOutput o then
        r <- deref res ;;
        write (promotionCreated
                 (GetName (GetMetadata (GetPromotion (Msg r))))) ;;;
        ret None
      else
        match ToPrinter env (PrintFlags (Option_ o)) with
        | inr err => ret (Wrap (Some err) "new printer")
        | inl printer =>
            r <- deref res ;;
            let promo := FromPromotionProto env (GetPromotion (Msg r)) in
            printObj printer [] promo ;;;
            ret None
        end
  end.

(** The body of the plain loop: [*p.Metadata.Name] goes through three
    pointers, and the line is written once the name is in hand. *)
Definition printCreated (p : option Promotion) : Go unit :=
  p' <- deref p ;;
  metadata <- deref (Metadata p') ;;
  name <- deref (Name metadata) ;;
  write (promotionCreated name).

(** The structured loop, handing each promotion to the one printer. *)
Fixpoint printEach (printer : Printer) (printed : list KubePromotion)
         (ps : list (option Promotion)) : Go unit :=
  match ps with
  | [] => ret tt
  | p :: rest =>
      let kubeP := FromPromotionProto env p in
      printObj printer printed kubeP ;;;
      printEach printer (printed ++ [kubeP]) rest
  end.

(** The subscribers branch from the test of the output format to its
    end. *)
Definition subscribersOutput (o : promotionOptions)
           (res : option (Response PromoteSubscribersResponse))
           (promoteErr : error)
  : Go error :=
  if plainOutput o then
    match res with
    | Some {| Msg := Some m |} =>
        forRange (GetPromotions (Some m)) printCreated
    | _ => ret tt
    end ;;;
    match promoteErr with
    | Some _ => ret (Wrap promoteErr "promote subscribers")
    | None => ret None
    end
  else
    match ToPrinter env (PrintFlags (Option_ o)) with
    | inr printerErr => ret (Wrap (Some printerErr) "new printer")
    | inl printer =>
        r <- deref res ;;
        printEach printer [] (GetPromotions (Msg r)) ;;;
        ret promoteErr
    end.

Definition run (o : promotionOptions) : Go error :=
  match GetClientFromConfig env (Config o) (Option_ o) with
  | inr err => ret (Some err)
  | inl kargoSvcCli =>
      if negb (isEmpty (Stage o)) then
        let req := stageRequest o in
        answer <- remote (CallPromoteStage req)
                         (PromoteStage kargoSvcCli req) ;;
        stageOutput o (fst answer) (snd answer)
      else if negb (isEmpty (SubscribersOf o)) then
        let req := subscribersRequest o in
        answer <- remote (CallPromoteSubscribers req)
                         (PromoteSubscribers kargoSvcCli req) ;;
        subscribersOutput o (fst answer) (snd answer)
      else ret None
  end.

(** The [RunE] closure of [NewCommand]. *)
Definition RunE (o : promotionOptions) : Go error :=
  match validate o with
  | Some err => ret (Some err)
  | None => run o
  end.

End Command.

End Promote.

Import Promote.

Arguments Option_ {CLIConfig} _.
Arguments Config {CLIConfig} _.
Arguments FreightName {CLIConfig} _.
Arguments FreightAlias {CLIConfig} _.
Arguments Stage {CLIConfig} _.
Arguments SubscribersOf {CLIConfig} _.
Arguments Build_promotionOptions {CLIConfig} _ _ _ _ _ _.
Arguments PrintObj {KubePromotion} _ _ _.
Arguments Build_Printer {KubePromotion} _.
Arguments Build_Collaborators {CLIConfig KubePromotion} _ _ _ _ _.
Arguments flags {CLIConfig KubePromotion} _.
Arguments quote {CLIConfig KubePromotion} _ _.
Arguments GetClientFromConfig {CLIConfig KubePromotion} _ _ _.
Arguments ToPrinter {CLIConfig KubePromotion} _ _.
Arguments FromPromotionProto {CLIConfig KubePromotion} _ _.
Arguments promotionCreated {CLIConfig KubePromotion} env name.
Arguments projectRequired {CLIConfig KubePromotion} env.
Arguments freightRequired {CLIConfig KubePromotion} env.
Arguments selectorRequired {CLIConfig KubePromotion} env.
Arguments validateErrs {CLIConfig KubePromotion} env o.
Arguments validate {CLIConfig KubePromotion} env o.
Arguments plainOutput {CLIConfig} o.
Arguments stageRequest {CLIConfig} o.
Arguments subscribersRequest {CLIConfig} o.
Arguments printObj {KubePromotion} printer printed obj _.
Arguments stageOutput {CLIConfig KubePromotion} env o res err _.
Arguments printCreated {CLIConfig KubePromotion} env p _.
Arguments printEach {CLIConfig KubePromotion} env printer printed ps _.
Arguments subscribersOutput {CLIConfig KubePromotion} env o res promoteErr _.
Arguments run {CLIConfig KubePromotion} env o _.
Arguments RunE {CLIConfig KubePromotion} env o _.

(** ** Vocabulary of the specification *)

Module Spec.

(** The world after [bytes] more were written and nothing else happened. *)
Definition written (w : World) (bytes : string) : World :=
  {| Out := Out w ++ bytes; RPCs := RPCs w |}.

(** The world after the remote call [c] was issued. *)
Definition called (w : World) (c : Call) : World :=
  {| Out := Out w; RPCs := RPCs w ++ [c] |}.

(** A computation that only appends fixed bytes to the output and ends in a
    fixed way, whatever the world it starts from. *)
Definition rendersOnly {A} (m : Go A) (bytes : string) (c : Completion A)
  : Prop :=
  forall w, m w = (written w bytes, c).

(** [renders m]: [m] only writes, and what it writes and how it ends do
    not depend on the world. *)
Definition renders {A} (m : Go A) : Prop :=
  exists bytes c, rendersOnly m bytes c.

(** The name a promotion carries, when it and its metadata are present and
    the name is set. *)
Definition nameOf (p : option Promotion) : option string :=
  match p with
  | Some {| Metadata := Some {| Name := Some n |} |} => Some n
  | _ => None
  end.

Definition hasName (p : option Promotion) : bool :=
  match nameOf p with
  | Some _ => true
  | None => false
  end.

(** The promotions of a response that may be absent or empty. *)
Definition promotionsOf (res : option (Response PromoteSubscribersResponse))
  : list (option Promotion) :=
  match res with
  | Some r => GetPromotions (Msg r)
  | None => []
  end.

Section Words.

Variables CLIConfig KubePromotion : Type.
Variable env : Collaborators CLIConfig KubePromotion.

(** One line per created promotion, in order. *)
Fixpoint createdLines (names : list string) : string :=
  match names with
  | [] => EmptyString
  | n :: rest => promotionCreated env n ++ createdLines rest
  end.

(** The checks of the validator that an options value violates, in check
    order, as the code makes them: each pair of fields is only tested for
    being empty together. *)
Definition violations (o : promotionOptions CLIConfig) : list error_value :=
  (if isEmpty (Project (Option_ o)) then [projectRequired env] else [])
  ++ (if isEmpty (FreightName o) && isEmpty (FreightAlias o)
      then [freightRequired env] else [])
  ++ (if isEmpty (Stage o) && isEmpty (SubscribersOf o)
      then [selectorRequired env] else []).

End Words.

Arguments createdLines {CLIConfig KubePromotion} env names.
Arguments violations {CLIConfig KubePromotion} env o.

(** The data-model invariant of the specification fails for [o]: the
    project is empty, or the freight fields are not exactly one non-empty,
    or the selector fields are not exactly one non-empty. *)
Definition breaksInvariant {CLIConfig} (o : promotionOptions CLIConfig)
  : bool :=
  isEmpty (Project (Option_ o))
  || Bool.eqb (isEmpty (FreightName o)) (isEmpty (FreightAlias o))
  || Bool.eqb (isEmpty (Stage o)) (isEmpty (SubscribersOf o)).

(** The part of it that the validator tests: an empty project, or two
    empty freight fields, or two empty selector fields. *)
Definition missesRequired {CLIConfig} (o : promotionOptions CLIConfig)
  : bool :=
  isEmpty (Project (Option_ o))
  || (isEmpty (FreightName o) && isEmpty (FreightAlias o))
  || (isEmpty (Stage o) && isEmpty (SubscribersOf o)).

(** What a printer writes when it is handed [objs] one after the other,
    having been handed [printed] before. *)
Fixpoint printedBytes {KubePromotion} (printer : Printer KubePromotion)
         (printed objs : list KubePromotion) : string :=
  match objs with
  | [] => EmptyString
  | obj :: rest =>
      fst (PrintObj printer printed obj)
      ++ printedBytes printer (printed ++ [obj]) rest
  end.

(** The one remote call that options with a selector lead to: the stage
    call when a target stage is given, the subscribers call otherwise. *)
Definition callOf {CLIConfig} (o : promotionOptions CLIConfig) : Call :=
  if isEmpty (Stage o)
  then CallPromoteSubscribers (subscribersRequest o)
  else CallPromoteStage (stageRequest o).

End Spec.
Import Spec.

(** ** Concrete collaborators and inputs *)

Module Scenarios.

(** The flag names as the usage line of the command shows them. *)
Definition kargoFlags : FlagNames :=
  {| ProjectFlag := "project";
     FreightFlag := "freight";
     FreightAliasFlag := "freight-alias";
     StageFlag := "stage";
     SubscribersOfFlag := "subscribers-of" |}.

Definition hexDigit (n : nat) : ascii :=
  nth n (list_ascii_of_string "0123456789abcdef") "0"%char.

(** What [%q] writes for one ASCII character: a backslash before the
    double quote and the backslash, the short escapes of Go for the
    control characters that have one, two hexadecimal digits for the other
    control characters, and the character itself otherwise. *)
Definition quoteChar (c : ascii) : string :=
  let n := nat_of_ascii c in
  let escaped (code : string) : string := String backslash code in
  if Nat.eqb n 34 then escaped (String c EmptyString)
  else if Nat.eqb n 92 then escaped (String c EmptyString)
  else if Nat.eqb n 7 then escaped "a"
  else if Nat.eqb n 8 then escaped "b"
  else if Nat.eqb n 12 then escaped "f"
  else if Nat.eqb n 10 then escaped "n"
  else if Nat.eqb n 13 then escaped "r"
  else if Nat.eqb n 9 then escaped "t"
  else if Nat.eqb n 11 then escaped "v"
  else if Nat.ltb n 32 || Nat.eqb n 127
       then escaped (String "x" (String (hexDigit (Nat.div n 16))
                       (String (hexDigit (Nat.modulo n 16)) EmptyString)))
  else String c EmptyString.

Fixpoint quoteChars (s : string) : string :=
  match s with
  | EmptyString => EmptyString
  | String c rest => quoteChar c ++ quoteChars rest
  end.

(** [%q] on a string of ASCII characters (bytes above 127 are passed
    through, as Go does for the printable characters they encode). *)
Definition quoteASCII (s : string) : string :=
  String dquote (quoteChars s ++ String dquote EmptyString).

(** [s] between double quotes. *)
Definition quoted (s : string) : string :=
  String dquote (s ++ String dquote EmptyString).

Definition named (n : string) : option Promotion :=
  Some {| Metadata := Some {| Name := Some n |} |}.

(** A promotion that came without its metadata. *)
Definition nameless : option Promotion := Some {| Metadata := None |}.

(** A printer that writes a promotion as its name on a line of its own,
    with a separator line before every object but the first. *)
Definition separatingPrinter : Printer (option Promotion) :=
  {| PrintObj := fun printed obj =>
       ((match printed with [] => EmptyString | _ => "---" ++ newline end)
        ++ GetName (GetMetadata obj) ++ newline, None)%string |}.

(** A printer that writes nothing and fails on every object. *)
Definition failingPrinter : Printer (option Promotion) :=
  {| PrintObj := fun _ _ => (EmptyString, Some (Foreign "cannot print")) |}.

(** A service whose two operations answer the same way whatever the
    request. *)
Definition service
           (stageAnswer : option (Response PromoteStageResponse) * error)
           (subscribersAnswer :
              option (Response PromoteSubscribersResponse) * error)
  : Client :=
  {| PromoteStage := fun _ => stageAnswer;
     PromoteSubscribers := fun _ => subscribersAnswer |}.

Definition unused {A} : option (Response A) * error :=
  (None, Some (Foreign "not expected")).

(** Collaborators with a reachable service and a given printer. *)
Definition world (cli : Client) (printer : Printer (option Promotion))
  : Collaborators unit (option Promotion) :=
  {| flags := kargoFlags;
     quote := quoteASCII;
     GetClientFromConfig := fun _ _ => inl cli;
     ToPrinter := fun _ => inl printer;
     FromPromotionProto := fun p => p |}.

Definition options (project : string) (format : option string)
           (freight alias stage subscribers : string)
  : promotionOptions unit :=
  {| Option_ := {| Project := project;
                   PrintFlags := {| OutputFormat := format |} |};
     Config := tt;
     FreightName := freight;
     FreightAlias := alias;
     Stage := stage;
     SubscribersOf := subscribers |}.

Definition fresh : World := {| Out := EmptyString; RPCs := [] |}.

Definition E : error_value := Foreign "unavailable".

(** Nothing was given on the command line. *)
Definition nothingGiven : promotionOptions unit :=
  options EmptyString None EmptyString EmptyString EmptyString EmptyString.

(** Scenarios A and B: [--project=my-project --freight=abc123 --stage=qa]. *)
Definition toQA (format : option string) : promotionOptions unit :=
  options "my-project" format "abc123" EmptyString "qa" EmptyString.

(** Scenario C:
    [--project=my-project --freight-alias=wonky-wombat --subscribers-of=qa]. *)
Definition toSubscribersOfQA (format : option string)
  : promotionOptions unit :=
  options "my-project" format EmptyString "wonky-wombat" EmptyString "qa".

(** Both freight fields set, otherwise as scenario A. *)
Definition twoFreights : promotionOptions unit :=
  options "my-project" None "abc123" "wonky-wombat" "qa" EmptyString.

(** Both selectors set. *)
Definition twoSelectors : promotionOptions unit :=
  options "my-project" None "abc123" EmptyString "qa" "uat".

Definition stageCreated (name : string)
  : option (Response PromoteStageResponse) * error :=
  (Some {| Msg := Some {| Promotion_ := named name |} |}, None).

Definition subscribersAnswered (ps : list (option Promotion)) (err : error)
  : option (Response PromoteSubscribersResponse) * error :=
  (Some {| Msg := Some {| Promotions := ps |} |}, err).

Definition subscribersCreated (names : list string) (err : error)
  : option (Response PromoteSubscribersResponse) * error :=
  subscribersAnswered (map named names) err.

(** Collaborators whose client and printer factories may fail. *)
Definition collaborators (cli : Client + error_value)
           (printer : Printer (option Promotion) + error_value)
  : Collaborators unit (option Promotion) :=
  {| flags := kargoFlags;
     quote := quoteASCII;
     GetClientFromConfig := fun _ _ => cli;
     ToPrinter := fun _ => printer;
     FromPromotionProto := fun p => p |}.

Definition noServer : error_value := Foreign "no server configured".

Definition noSuchFormat : error_value := Foreign "unknown output format".

(** A stage call that succeeded with a response that holds no promotion. *)
Definition stageAnsweredEmpty
  : option (Response PromoteStageResponse) * error :=
  (Some {| Msg := Some {| Promotion_ := None |} |}, None).

End Scenarios.

(** * Properties *)

(** ** Strings and worlds *)

Lemma append_empty_r (s : string) : (s ++ EmptyString)%string = s.
Proof. induction s as [|c s IH]; simpl; [reflexivity | now rewrite IH]. Qed.

Lemma append_assoc (s t u : string) :
  ((s ++ t) ++ u)%string = (s ++ (t ++ u))%string.
Proof. induction s as [|c s IH]; simpl; [reflexivity | now rewrite IH]. Qed.

Lemma written_empty (w : World) : written w EmptyString = w.
Proof.
  destruct w as [out rpcs]; unfold written; simpl.
  now rewrite append_empty_r.
Qed.

Lemma written_twice (w : World) (a b : string) :
  written (written w a) b = written w (a ++ b).
Proof. unfold written; simpl. now rewrite append_assoc. Qed.

Lemma isEmpty_true (s : string) : isEmpty s = true <-> s = EmptyString.
Proof. unfold isEmpty. apply String.eqb_eq. Qed.

Lemma isEmpty_false (s : string) : isEmpty s = false <-> s <> EmptyString.
Proof. unfold isEmpty. apply String.eqb_neq. Qed.

(** An error is never its own annotation. *)
Lemma WithMessage_fresh (e : error_value) (msg : string) :
  WithMessage e msg <> e.
Proof.
  revert msg. induction e as [m | cause IH m | errs | d]; intros msg H;
    try discriminate.
  injection H as Hcause _. exact (IH _ Hcause).
Qed.

(** ** Computations that only write *)

Section RendersOnly.

Context {A B : Type}.

Lemma rendersOnly_ret (a : A) : rendersOnly (ret a) EmptyString (Done a).
Proof. intro w. unfold ret. now rewrite written_empty. Qed.

Lemma rendersOnly_panic : rendersOnly (@panic A) EmptyString Panic.
Proof. intro w. unfold panic. now rewrite written_empty. Qed.

Lemma rendersOnly_deref_some (a : A) :
  rendersOnly (deref (Some a)) EmptyString (Done a).
Proof. apply rendersOnly_ret. Qed.

Lemma rendersOnly_deref_none : rendersOnly (@deref A None) EmptyString Panic.
Proof. apply rendersOnly_panic. Qed.

Lemma rendersOnly_bind (m : Go A) (k : A -> Go B) b a b' c :
  rendersOnly m b (Done a) ->
  rendersOnly (k a) b' c ->
  rendersOnly (bind m k) (b ++ b') c.
Proof.
  intros Hm Hk w. unfold bind. rewrite Hm, Hk. now rewrite written_twice.
Qed.

Lemma rendersOnly_bind_panic (m : Go A) (k : A -> Go B) b :
  rendersOnly m b Panic ->
  rendersOnly (bind m k) b Panic.
Proof. intros Hm w. unfold bind. now rewrite Hm. Qed.

End RendersOnly.

Lemma rendersOnly_write (bytes : string) :
  rendersOnly (write bytes) bytes (Done tt).
Proof. intro w. reflexivity. Qed.

Lemma renders_ret {A} (a : A) : renders (ret a).
Proof. eexists _, _. apply rendersOnly_ret. Qed.

Lemma renders_bind {A B} (m : Go A) (k : A -> Go B) :
  renders m -> (forall a, renders (k a)) -> renders (bind m k).
Proof.
  intros (b & [a|] & Hm) Hk.
  - destruct (Hk a) as (b' & c & Hka). eexists _, _.
    eapply rendersOnly_bind; eassumption.
  - eexists _, _. eapply rendersOnly_bind_panic; eassumption.
Qed.

Lemma renders_deref {A} (p : option A) : renders (deref p).
Proof.
  destruct p; eexists _, _;
    [apply rendersOnly_deref_some | apply rendersOnly_deref_none].
Qed.

Lemma renders_write (bytes : string) : renders (write bytes).
Proof. eexists _, _. apply rendersOnly_write. Qed.

Lemma renders_forRange {A} (body : A -> Go unit) (xs : list A) :
  (forall x, renders (body x)) -> renders (forRange xs body).
Proof.
  intro Hbody. induction xs as [|x xs IH]; simpl.
  - apply renders_ret.
  - apply renders_bind; [apply Hbody | intros _; exact IH].
Qed.

Create HintDb renders.

#[local] Hint Resolve renders_ret renders_bind renders_deref renders_write
  renders_forRange : renders.

(** A computation that only writes leaves the record of remote calls as
    it found it. *)
Lemma renders_RPCs {A} (m : Go A) (w : World) :
  renders m -> RPCs (fst (m w)) = RPCs w.
Proof. intros (b & c & H). now rewrite H. Qed.

(** Run again on the world it left, such a computation writes the same
    bytes and ends the same way. *)
Lemma renders_again {A} (m : Go A) (w : World) :
  renders m ->
  snd (m (fst (m w))) = snd (m w)
  /\ exists bytes,
       Out (fst (m w)) = (Out w ++ bytes)%string
       /\ Out (fst (m (fst (m w)))) = (Out (fst (m w)) ++ bytes)%string.
Proof.
  intros (b & c & H). rewrite !H. simpl. split; [reflexivity|].
  exists b. split; reflexivity.
Qed.

(** ** The blocks of [run] *)

Section Blocks.

Variables CLIConfig KubePromotion : Type.
Variable env : Collaborators CLIConfig KubePromotion.

Lemma renders_printObj (printer : Printer KubePromotion) printed obj :
  renders (printObj printer printed obj).
Proof. unfold printObj. auto with renders. Qed.

Lemma renders_printCreated (p : option Promotion) :
  renders (printCreated env p).
Proof. unfold printCreated. auto 10 with renders. Qed.

Lemma renders_printEach (printer : Printer KubePromotion) ps :
  forall printed, renders (printEach env printer printed ps).
Proof.
  induction ps as [|p ps IH]; intro printed; simpl.
  - apply renders_ret.
  - apply renders_bind; [apply renders_printObj | intros _; apply IH].
Qed.

Lemma renders_stageOutput (o : promotionOptions CLIConfig) res err :
  renders (stageOutput env o res err).
Proof.
  unfold stageOutput. destruct err as [e|]; [apply renders_ret|].
  destruct (plainOutput o).
  - auto 10 with renders.
  - destruct (ToPrinter env _) as [printer|e]; [|apply renders_ret].
    apply renders_bind; [apply renders_deref|]. intro r.
    apply renders_bind; [apply renders_printObj | intros _; apply renders_ret].
Qed.

Lemma renders_subscribersOutput
      (o : promotionOptions CLIConfig) res promoteErr :
  renders (subscribersOutput env o res promoteErr).
Proof.
  unfold subscribersOutput. destruct (plainOutput o).
  - apply renders_bind.
    + destruct res as [[[m|]]|]; try apply renders_ret.
      apply renders_forRange, renders_printCreated.
    + intros _. destruct promoteErr; apply renders_ret.
  - destruct (ToPrinter env _) as [printer|e]; [|apply renders_ret].
    apply renders_bind; [apply renders_deref|]. intro r.
    apply renders_bind; [apply renders_printEach | intros _; apply renders_ret].
Qed.

(** The body of the plain loop writes the line of a promotion that has a
    name and panics, before writing anything, on one that has none. *)
Lemma printCreated_named (p : option Promotion) (n : string) :
  nameOf p = Some n ->
  rendersOnly (printCreated env p) (promotionCreated env n) (Done tt).
Proof.
  destruct p as [[[[[n'|]]|]]|]; simpl; try discriminate.
  intros [= ->] w. reflexivity.
Qed.

Lemma printCreated_unnamed (p : option Promotion) :
  nameOf p = None ->
  rendersOnly (printCreated env p) EmptyString Panic.
Proof.
  destruct p as [[[[[n'|]]|]]|]; simpl; try discriminate;
    intros _ w; cbv [printCreated bind deref panic ret]; simpl;
    now rewrite written_empty.
Qed.

(** The plain loop over promotions that all have names writes their lines
    in order. *)
Lemma forRange_named (ps : list (option Promotion)) :
  forall names,
    map nameOf ps = map Some names ->
    rendersOnly (forRange ps (printCreated env))
                (createdLines env names) (Done tt).
Proof.
  induction ps as [|p ps IH]; intros [|n names] H; simpl in H;
    try discriminate.
  - apply rendersOnly_ret.
  - injection H as Hp Hps. cbn [forRange createdLines].
    eapply rendersOnly_bind; [apply printCreated_named, Hp | apply IH, Hps].
Qed.

(** It panics as soon as it meets a promotion without a name. *)
Lemma forRange_unnamed (ps : list (option Promotion)) :
  forallb hasName ps = false ->
  exists bytes, rendersOnly (forRange ps (printCreated env)) bytes Panic.
Proof.
  induction ps as [|p ps IH]; simpl; [discriminate|].
  unfold hasName at 1. destruct (nameOf p) as [n|] eqn:Hp; simpl.
  - intro H. destruct (IH H) as (b & Hb). eexists.
    eapply rendersOnly_bind; [apply printCreated_named, Hp | exact Hb].
  - intros _. eexists.
    apply rendersOnly_bind_panic, printCreated_unnamed, Hp.
Qed.

Lemma named_names (ps : list (option Promotion)) :
  forallb hasName ps = true ->
  exists names, map nameOf ps = map Some names.
Proof.
  induction ps as [|p ps IH]; simpl.
  - intros _. now exists [].
  - unfold hasName at 1. destruct (nameOf p) as [n|] eqn:Hp; simpl;
      [|discriminate].
    intro H. destruct (IH H) as (names & Hn). exists (n :: names).
    simpl. now rewrite Hn.
Qed.

(** [RunE] is [run] on options that pass validation. *)
Lemma RunE_valid (o : promotionOptions CLIConfig) :
  validate env o = None -> RunE env o = run env o.
Proof. intro H. unfold RunE. now rewrite H. Qed.

(** With a client in hand and a target stage, [run] issues the stage call
    and goes on with the single-stage block. *)
Lemma run_stage (o : promotionOptions CLIConfig) (cli : Client) (w : World) :
  GetClientFromConfig env (Config o) (Option_ o) = inl cli ->
  isEmpty (Stage o) = false ->
  run env o w =
  stageOutput env o (fst (PromoteStage cli (stageRequest o)))
              (snd (PromoteStage cli (stageRequest o)))
              (called w (CallPromoteStage (stageRequest o))).
Proof. intros Hcli Hstage. unfold run. rewrite Hcli, Hstage. reflexivity. Qed.

(** With a client in hand, no target stage and a source stage, [run]
    issues the subscribers call and goes on with the subscribers block. *)
Lemma run_subscribers
      (o : promotionOptions CLIConfig) (cli : Client) (w : World) :
  GetClientFromConfig env (Config o) (Option_ o) = inl cli ->
  isEmpty (Stage o) = true ->
  isEmpty (SubscribersOf o) = false ->
  run env o w =
  subscribersOutput env o
    (fst (PromoteSubscribers cli (subscribersRequest o)))
    (snd (PromoteSubscribers cli (subscribersRequest o)))
    (called w (CallPromoteSubscribers (subscribersRequest o))).
Proof.
  intros Hcli Hstage Hsubs. unfold run. rewrite Hcli, Hstage, Hsubs.
  reflexivity.
Qed.

(** The validator and the list of violated checks. *)
Lemma validateErrs_violations (o : promotionOptions CLIConfig) :
  nonNil (validateErrs env o) = violations env o.
Proof.
  unfold validateErrs, violations.
  destruct (isEmpty (Project (Option_ o)));
    destruct (isEmpty (FreightName o) && isEmpty (FreightAlias o));
    destruct (isEmpty (Stage o) && isEmpty (SubscribersOf o));
    reflexivity.
Qed.

Lemma validate_accepts (o : promotionOptions CLIConfig) :
  validate env o = None <-> missesRequired o = false.
Proof.
  unfold validate, Join, missesRequired. rewrite validateErrs_violations.
  unfold violations.
  destruct (isEmpty (Project (Option_ o)));
    destruct (isEmpty (FreightName o) && isEmpty (FreightAlias o));
    destruct (isEmpty (Stage o) && isEmpty (SubscribersOf o));
    simpl; split; intro H; (reflexivity || discriminate).
Qed.

(** *** The single-stage block *)

Lemma stageOutput_failed
      (o : promotionOptions CLIConfig) res (e : error_value) :
  rendersOnly (stageOutput env o res (Some e)) EmptyString
              (Done (Some (WithMessage e "promote stage"))).
Proof. unfold stageOutput. apply rendersOnly_ret. Qed.

Lemma stageOutput_plain
      (o : promotionOptions CLIConfig) (r : Response PromoteStageResponse) :
  plainOutput o = true ->
  rendersOnly (stageOutput env o (Some r) None)
              (promotionCreated env
                 (GetName (GetMetadata (GetPromotion (Msg r)))))
              (Done None).
Proof.
  intros Hplain w. unfold stageOutput. rewrite Hplain. reflexivity.
Qed.

Lemma stageOutput_structured (o : promotionOptions CLIConfig) printer
      (r : Response PromoteStageResponse) :
  plainOutput o = false ->
  ToPrinter env (PrintFlags (Option_ o)) = inl printer ->
  rendersOnly (stageOutput env o (Some r) None)
              (fst (PrintObj printer []
                      (FromPromotionProto env (GetPromotion (Msg r)))))
              (Done None).
Proof.
  intros Hplain Hprinter w. unfold stageOutput.
  rewrite Hplain, Hprinter. reflexivity.
Qed.

(** *** The subscribers block *)

Lemma subscribersOutput_plain
      (o : promotionOptions CLIConfig) res promoteErr names :
  plainOutput o = true ->
  map nameOf (promotionsOf res) = map Some names ->
  rendersOnly (subscribersOutput env o res promoteErr)
              (createdLines env names)
              (Done (Wrap promoteErr "promote subscribers")).
Proof.
  intros Hplain Hnames. unfold subscribersOutput. rewrite Hplain.
  rewrite <- (append_empty_r (createdLines env names)).
  apply rendersOnly_bind with (a := tt).
  - destruct res as [[[m|]]|]; simpl in Hnames.
    + apply forRange_named, Hnames.
    + destruct names; [apply rendersOnly_ret | discriminate].
    + destruct names; [apply rendersOnly_ret | discriminate].
  - destruct promoteErr; apply rendersOnly_ret.
Qed.

Lemma subscribersOutput_plain_panics
      (o : promotionOptions CLIConfig) res promoteErr :
  plainOutput o = true ->
  forallb hasName (promotionsOf res) = false ->
  exists bytes,
    rendersOnly (subscribersOutput env o res promoteErr) bytes Panic.
Proof.
  intros Hplain Hnames. unfold subscribersOutput. rewrite Hplain.
  destruct res as [[[m|]]|]; simpl in Hnames; try discriminate.
  destruct (forRange_unnamed _ Hnames) as (bytes & Hloop).
  exists bytes. apply rendersOnly_bind_panic, Hloop.
Qed.

(** The structured loop hands every promotion to the printer and runs to
    its end whatever the printer returns. *)
Lemma printEach_completes (printer : Printer KubePromotion) ps :
  forall printed,
  exists bytes, rendersOnly (printEach env printer printed ps) bytes (Done tt).
Proof.
  induction ps as [|p ps IH]; intro printed; cbn [printEach].
  - eexists. apply rendersOnly_ret.
  - destruct (IH (printed ++ [FromPromotionProto env p])) as (bytes & Hrest).
    eexists. eapply rendersOnly_bind; [|exact Hrest].
    unfold printObj. apply rendersOnly_write.
Qed.

Lemma subscribersOutput_structured (o : promotionOptions CLIConfig) printer
      (r : Response PromoteSubscribersResponse) promoteErr :
  plainOutput o = false ->
  ToPrinter env (PrintFlags (Option_ o)) = inl printer ->
  exists bytes,
    rendersOnly (subscribersOutput env o (Some r) promoteErr) bytes
                (Done promoteErr).
Proof.
  intros Hplain Hprinter. unfold subscribersOutput.
  rewrite Hplain, Hprinter.
  destruct (printEach_completes printer (GetPromotions (Msg r)) [])
    as (bytes & Hloop).
  exists (EmptyString ++ bytes ++ EmptyString)%string.
  eapply rendersOnly_bind; [apply rendersOnly_deref_some|].
  eapply rendersOnly_bind; [exact Hloop | apply rendersOnly_ret].
Qed.

Lemma subscribersOutput_structured_nil
      (o : promotionOptions CLIConfig) printer promoteErr :
  plainOutput o = false ->
  ToPrinter env (PrintFlags (Option_ o)) = inl printer ->
  rendersOnly (subscribersOutput env o None promoteErr) EmptyString Panic.
Proof.
  intros Hplain Hprinter. unfold subscribersOutput.
  rewrite Hplain, Hprinter.
  apply rendersOnly_bind_panic, rendersOnly_deref_none.
Qed.

End Blocks.

(** ** The command *)

Section CommandProperties.

Variables CLIConfig KubePromotion : Type.
Variable env : Collaborators CLIConfig KubePromotion.

(** C1. Options pass validation, a source stage is given and the
    subscribers call is the one issued (no target stage), the output mode
    is plain, and the call answers with a response and with an error [E]:
    the command writes one line [Promotion Created: %q] per promotion of
    the response, in response order, and returns [E] wrapped with
    [promote subscribers]. The promotions of the response carry the names
    [names]. *)
Theorem subscribers_plain_prints_created_then_fails
        (o : promotionOptions CLIConfig) (cli : Client)
        (resp : Response PromoteSubscribersResponse) (E : error_value)
        (names : list string) (w : World) :
  validate env o = None ->
  isEmpty (SubscribersOf o) = false ->
  isEmpty (Stage o) = true ->
  plainOutput o = true ->
  GetClientFromConfig env (Config o) (Option_ o) = inl cli ->
  PromoteSubscribers cli (subscribersRequest o) = (Some resp, Some E) ->
  map nameOf (GetPromotions (Msg resp)) = map Some names ->
  RunE env o w =
  (written (called w (CallPromoteSubscribers (subscribersRequest o)))
           (createdLines env names),
   Done (Some (WithMessage E "promote subscribers"))).
Proof.
  intros Hvalid Hsubs Hstage Hplain Hcli Hanswer Hnames.
  rewrite (RunE_valid _ _ env o Hvalid).
  rewrite (run_subscribers _ _ env o cli w Hcli Hstage Hsubs).
  rewrite Hanswer. cbn [fst snd].
  now rewrite (subscribersOutput_plain _ _ env o (Some resp) (Some E) names).
Qed.

(** C5. Options pass validation, a target stage is given, the output mode
    is plain and the stage call succeeds with a promotion named [n]: the
    command writes the one line [Promotion Created: %q] of [n], newline
    included, and returns nil. *)
Theorem stage_plain_prints_created
        (o : promotionOptions CLIConfig) (cli : Client)
        (res : Response PromoteStageResponse) (n : string) (w : World) :
  validate env o = None ->
  isEmpty (Stage o) = false ->
  plainOutput o = true ->
  GetClientFromConfig env (Config o) (Option_ o) = inl cli ->
  PromoteStage cli (stageRequest o) = (Some res, None) ->
  GetName (GetMetadata (GetPromotion (Msg res))) = n ->
  RunE env o w =
  (written (called w (CallPromoteStage (stageRequest o)))
           (promotionCreated env n),
   Done None).
Proof.
  intros Hvalid Hstage Hplain Hcli Hanswer <-.
  rewrite (RunE_valid _ _ env o Hvalid).
  rewrite (run_stage _ _ env o cli w Hcli Hstage).
  rewrite Hanswer. cbn [fst snd].
  now rewrite (stageOutput_plain _ _ env o res Hplain).
Qed.

(** C6. Options pass validation, a target stage is given and the stage
    call fails with [E]: whatever the output mode and whatever response
    comes with the error, the command writes nothing and returns [E]
    wrapped with [promote stage]. *)
Theorem stage_failure_is_wrapped
        (o : promotionOptions CLIConfig) (cli : Client)
        (res : option (Response PromoteStageResponse)) (E : error_value)
        (w : World) :
  validate env o = None ->
  isEmpty (Stage o) = false ->
  GetClientFromConfig env (Config o) (Option_ o) = inl cli ->
  PromoteStage cli (stageRequest o) = (res, Some E) ->
  RunE env o w =
  (called w (CallPromoteStage (stageRequest o)),
   Done (Some (WithMessage E "promote stage")))
  /\ Out (fst (RunE env o w)) = Out w.
Proof.
  intros Hvalid Hstage Hcli Hanswer.
  rewrite (RunE_valid _ _ env o Hvalid).
  rewrite (run_stage _ _ env o cli w Hcli Hstage).
  rewrite Hanswer. cbn [fst snd].
  rewrite (stageOutput_failed _ _ env o res E), written_empty.
  split; reflexivity.
Qed.

(** C7. Rendering keeps no state: for a fixed outcome of the remote call
    (response and error) and fixed options, hence a fixed output format,
    the rendering block of either branch, run a second time on the world
    the first run left, appends the same bytes to the output and ends the
    same way, with the same returned error. *)
Theorem rendering_twice_is_rendering_again
      (o : promotionOptions CLIConfig) (w : World) :
  (forall res err,
      let once := stageOutput env o res err w in
      let twice := stageOutput env o res err (fst once) in
      snd twice = snd once
      /\ exists bytes,
           Out (fst once) = (Out w ++ bytes)%string
           /\ Out (fst twice) = (Out (fst once) ++ bytes)%string)
  /\ (forall res promoteErr,
         let once := subscribersOutput env o res promoteErr w in
         let twice := subscribersOutput env o res promoteErr (fst once) in
         snd twice = snd once
         /\ exists bytes,
              Out (fst once) = (Out w ++ bytes)%string
              /\ Out (fst twice) = (Out (fst once) ++ bytes)%string).
Proof.
  split; intros res err; cbv zeta; apply renders_again.
  - apply renders_stageOutput.
  - apply renders_subscribersOutput.
Qed.

(** C8. When both selectors are given, the validator does not object to
    them, and [run], once it has its client, issues the stage call and
    nothing else: the target stage takes precedence over the source
    stage. *)
Theorem stage_takes_precedence
      (o : promotionOptions CLIConfig) (cli : Client) (w : World) :
  isEmpty (Stage o) = false ->
  isEmpty (SubscribersOf o) = false ->
  GetClientFromConfig env (Config o) (Option_ o) = inl cli ->
  (isEmpty (Project (Option_ o)) = false ->
   isEmpty (FreightName o) && isEmpty (FreightAlias o) = false ->
   validate env o = None)
  /\ RPCs (fst (run env o w)) = RPCs w ++ [CallPromoteStage (stageRequest o)].
Proof.
  intros Hstage Hsubs Hcli. split.
  - intros Hproject Hfreight. apply validate_accepts.
    unfold missesRequired. now rewrite Hproject, Hfreight, Hstage.
  - rewrite (run_stage _ _ env o cli w Hcli Hstage).
    rewrite renders_RPCs by apply renders_stageOutput. reflexivity.
Qed.

(** C9. In structured mode, with a printer in hand, what [PrintObj]
    returns is dropped in both branches: after a successful stage call the
    command returns nil, and after a subscribers call that answered with a
    response it returns the error of the call, as it came; this for every
    printer, failing or not. *)
Theorem print_errors_are_dropped
        (o : promotionOptions CLIConfig) (cli : Client)
        (printer : Printer KubePromotion)
        (w : World) :
  validate env o = None ->
  plainOutput o = false ->
  ToPrinter env (PrintFlags (Option_ o)) = inl printer ->
  GetClientFromConfig env (Config o) (Option_ o) = inl cli ->
  (forall res,
      isEmpty (Stage o) = false ->
      PromoteStage cli (stageRequest o) = (Some res, None) ->
      snd (RunE env o w) = Done None)
  /\ (forall res promoteErr,
         isEmpty (Stage o) = true ->
         isEmpty (SubscribersOf o) = false ->
         PromoteSubscribers cli (subscribersRequest o)
         = (Some res, promoteErr) ->
         snd (RunE env o w) = Done promoteErr).
Proof.
  intros Hvalid Hplain Hprinter Hcli.
  rewrite (RunE_valid _ _ env o Hvalid). split.
  - intros res Hstage Hanswer.
    rewrite (run_stage _ _ env o cli w Hcli Hstage), Hanswer. cbn [fst snd].
    now rewrite (stageOutput_structured _ _ env o printer res Hplain Hprinter).
  - intros res promoteErr Hstage Hsubs Hanswer.
    rewrite (run_subscribers _ _ env o cli w Hcli Hstage Hsubs), Hanswer.
    cbn [fst snd].
    destruct (subscribersOutput_structured _ _ env o printer res promoteErr
                                           Hplain Hprinter) as (bytes & H).
    now rewrite H.
Qed.

(** C10. In plain mode the loop of the subscribers block reads each name
    through [*p.Metadata.Name] without a guard. When every promotion of
    the response has its metadata and its name, the block writes their
    lines and returns; when one has not, the block panics. The
    single-stage block, which reads the name through the getters, never
    panics on a response that is present. *)
Theorem plain_loop_needs_names
        (o : promotionOptions CLIConfig)
        (res : option (Response PromoteSubscribersResponse))
        (promoteErr : error) (w : World) :
  plainOutput o = true ->
  (forallb hasName (promotionsOf res) = true ->
   exists names,
     map nameOf (promotionsOf res) = map Some names
     /\ subscribersOutput env o res promoteErr w
        = (written w (createdLines env names),
           Done (Wrap promoteErr "promote subscribers")))
  /\ (forallb hasName (promotionsOf res) = false ->
      snd (subscribersOutput env o res promoteErr w) = Panic)
  /\ (forall r : Response PromoteStageResponse,
         snd (stageOutput env o (Some r) None w) = Done None).
Proof.
  intro Hplain. split; [|split].
  - intro Hnamed. destruct (named_names _ Hnamed) as (names & Hnames).
    exists names. split; [exact Hnames|].
    now rewrite (subscribersOutput_plain _ _ env o res promoteErr names).
  - intro Hunnamed.
    destruct (subscribersOutput_plain_panics _ _ env o res promoteErr
                                             Hplain Hunnamed) as (bytes & H).
    now rewrite H.
  - intro r. now rewrite (stageOutput_plain _ _ env o r Hplain).
Qed.

(** C4, amended. When the project is empty, or both freight fields are
    empty, or both selector fields are empty, [validate] returns one
    aggregate error that holds the error of every violated check in check
    order (project, freight, selector), and the command returns it without
    writing anything or issuing a remote call. *)
Theorem validate_rejects_missing (o : promotionOptions CLIConfig) (w : World) :
  missesRequired o = true ->
  exists e es,
    violations env o = e :: es
    /\ validate env o = Some (joinError (e :: es))
    /\ RunE env o w = (w, Done (Some (joinError (e :: es)))).
Proof.
  intro Hmiss.
  assert (Hv : validate env o = Join (validateErrs env o)) by reflexivity.
  unfold Join in Hv. rewrite validateErrs_violations in Hv.
  destruct (violations env o) as [|e es] eqn:Hviol.
  - apply validate_accepts in Hv. rewrite Hv in Hmiss. discriminate.
  - exists e, es. split; [reflexivity|]. split; [exact Hv|].
    unfold RunE. rewrite Hv. reflexivity.
Qed.

End CommandProperties.

(** In structured mode the subscribers branch never returns the error of
    the call wrapped with [promote subscribers]: it returns the error as it
    came, or the error of the printer factory, or it panics. *)
Lemma structured_subscribers_never_wraps
      (CLIConfig KubePromotion : Type)
      (env : Collaborators CLIConfig KubePromotion)
      (o : promotionOptions CLIConfig) (cli : Client)
      (res : option (Response PromoteSubscribersResponse))
      (E : error_value) (w : World) :
  validate env o = None ->
  isEmpty (Stage o) = true ->
  isEmpty (SubscribersOf o) = false ->
  plainOutput o = false ->
  GetClientFromConfig env (Config o) (Option_ o) = inl cli ->
  PromoteSubscribers cli (subscribersRequest o) = (res, Some E) ->
  snd (RunE env o w) <> Done (Some (WithMessage E "promote subscribers")).
Proof.
  intros Hvalid Hstage Hsubs Hplain Hcli Hanswer.
  rewrite (RunE_valid _ _ env o Hvalid).
  rewrite (run_subscribers _ _ env o cli w Hcli Hstage Hsubs), Hanswer.
  cbn [fst snd].
  destruct (ToPrinter env (PrintFlags (Option_ o))) as [printer|e] eqn:Hp.
  - destruct res as [r|].
    + destruct (subscribersOutput_structured _ _ env o printer r (Some E)
                                             Hplain Hp) as (bytes & H).
      rewrite H. cbn [snd]. intros [= Hself].
      symmetry in Hself. exact (WithMessage_fresh _ _ Hself).
    + rewrite (subscribersOutput_structured_nil _ _ env o printer (Some E)
                                                Hplain Hp).
      discriminate.
  - unfold subscribersOutput. rewrite Hplain, Hp. cbn. intros [=].
Qed.

(** In structured mode, with a printer in hand, a subscribers call that
    answers without a response makes the command panic after the call. *)
Lemma structured_subscribers_needs_response
      (CLIConfig KubePromotion : Type)
      (env : Collaborators CLIConfig KubePromotion)
      (o : promotionOptions CLIConfig) (cli : Client)
      (printer : Printer KubePromotion) (promoteErr : error) (w : World) :
  validate env o = None ->
  isEmpty (Stage o) = true ->
  isEmpty (SubscribersOf o) = false ->
  plainOutput o = false ->
  ToPrinter env (PrintFlags (Option_ o)) = inl printer ->
  GetClientFromConfig env (Config o) (Option_ o) = inl cli ->
  PromoteSubscribers cli (subscribersRequest o) = (None, promoteErr) ->
  RunE env o w
  = (called w (CallPromoteSubscribers (subscribersRequest o)), Panic).
Proof.
  intros Hvalid Hstage Hsubs Hplain Hp Hcli Hanswer.
  rewrite (RunE_valid _ _ env o Hvalid).
  rewrite (run_subscribers _ _ env o cli w Hcli Hstage Hsubs), Hanswer.
  cbn [fst snd].
  rewrite (subscribersOutput_structured_nil _ _ env o printer promoteErr
                                            Hplain Hp).
  now rewrite written_empty.
Qed.

(** ** The scenarios of the specification, and the properties above at
    concrete inputs *)

Module Runs.

Import Scenarios.

(** Scenario A. *)
Example scenario_A :
  RunE (world (service (stageCreated "promo-1") unused) separatingPrinter)
       (toQA None) fresh
  = ({| Out := "Promotion Created: " ++ quoted "promo-1" ++ newline;
        RPCs := [CallPromoteStage
                   {| stageReqProject := "my-project";
                      stageReqFreight := "abc123";
                      stageReqFreightAlias := EmptyString;
                      stageReqStage := "qa" |}] |},
     Done None).
Proof. reflexivity. Qed.

(** Scenario B. *)
Example scenario_B :
  RunE (world (service (None, Some E) unused) separatingPrinter)
       (toQA None) fresh
  = ({| Out := EmptyString;
        RPCs := [CallPromoteStage (stageRequest (toQA None))] |},
     Done (Some (WithMessage E "promote stage"))).
Proof. reflexivity. Qed.

(** Scenario C. *)
Example scenario_C :
  RunE (world (service unused
                       (subscribersCreated ["promo-2"; "promo-3"] (Some E)))
              separatingPrinter)
       (toSubscribersOfQA None) fresh
  = ({| Out := "Promotion Created: " ++ quoted "promo-2" ++ newline
               ++ "Promotion Created: " ++ quoted "promo-3" ++ newline;
        RPCs := [CallPromoteSubscribers
                   {| subsReqProject := "my-project";
                      subsReqFreight := EmptyString;
                      subsReqFreightAlias := "wonky-wombat";
                      subsReqStage := "qa" |}] |},
     Done (Some (WithMessage E "promote subscribers"))).
Proof. reflexivity. Qed.

(** Scenario D, with nothing given at all: the three checks fail, the
    command returns their errors joined and leaves the world alone. *)
Example scenario_D :
  RunE (world (service unused unused) separatingPrinter) nothingGiven fresh
  = (fresh,
     Done (Some (joinError
                   [Errorf "project is required";
                    Errorf "either freight or freight-alias is required";
                    Errorf "either stage or subscribers-of is required"]))).
Proof. reflexivity. Qed.

(** C1 at scenario C. *)
Lemma subscribers_plain_prints_created_then_fails_witness :
  RunE (world (service unused
                       (subscribersCreated ["promo-2"; "promo-3"] (Some E)))
              separatingPrinter)
       (toSubscribersOfQA None) fresh
  = ({| Out := "Promotion Created: " ++ quoted "promo-2" ++ newline
               ++ "Promotion Created: " ++ quoted "promo-3" ++ newline;
        RPCs := [CallPromoteSubscribers
                   (subscribersRequest (toSubscribersOfQA None))] |},
     Done (Some (WithMessage E "promote subscribers"))).
Proof.
  apply (subscribers_plain_prints_created_then_fails
           unit (option Promotion)
           (world (service unused
                           (subscribersCreated ["promo-2"; "promo-3"]
                                               (Some E)))
                  separatingPrinter)
           (toSubscribersOfQA None)
           (service unused
                    (subscribersCreated ["promo-2"; "promo-3"] (Some E)))
           {| Msg := Some {| Promotions :=
                               map named ["promo-2"; "promo-3"] |} |}
           E ["promo-2"; "promo-3"] fresh);
    reflexivity.
Defined.

(** C2 at scenario C with a structured format: the command returns the
    error of the call as it came, where plain mode returns it wrapped. *)
Lemma structured_subscribers_error_is_bare :
  let env := world (service unused
                            (subscribersCreated ["promo-2"; "promo-3"]
                                                (Some E)))
                   separatingPrinter in
  snd (RunE env (toSubscribersOfQA (Some "yaml")) fresh) = Done (Some E)
  /\ snd (RunE env (toSubscribersOfQA None) fresh)
     = Done (Wrap (Some E) "promote subscribers")
  /\ Some E <> Wrap (Some E) "promote subscribers".
Proof. cbv zeta. repeat split. discriminate. Qed.

(** C3 at scenario C with the call answering an error and no response:
    with a structured format the command panics once the call is back,
    where plain mode writes nothing and returns the error wrapped. *)
Lemma structured_subscribers_nil_response_panics :
  let env := world (service unused (None, Some E)) separatingPrinter in
  let call := CallPromoteSubscribers
                (subscribersRequest (toSubscribersOfQA None)) in
  RunE env (toSubscribersOfQA (Some "yaml")) fresh
  = ({| Out := EmptyString; RPCs := [call] |}, Panic)
  /\ RunE env (toSubscribersOfQA None) fresh
     = ({| Out := EmptyString; RPCs := [call] |},
        Done (Some (WithMessage E "promote subscribers"))).
Proof. cbv zeta. split; reflexivity. Qed.

(** C4 fails on options with both freight fields given: they break the
    invariant of the data model, [validate] returns nil, and the command
    goes on to the remote call. *)
Lemma validate_accepts_two_freights :
  let env := world (service (stageCreated "promo-1") unused)
                   separatingPrinter in
  breaksInvariant twoFreights = true
  /\ validate env twoFreights = None
  /\ RPCs (fst (RunE env twoFreights fresh))
     = [CallPromoteStage (stageRequest twoFreights)].
Proof. cbv zeta. repeat split. Qed.

(** C4, amended, at options with no freight and no selector. *)
Lemma validate_rejects_missing_witness :
  exists e es,
    violations (world (service unused unused) separatingPrinter)
               (options "my-project" None EmptyString EmptyString
                        EmptyString EmptyString)
    = e :: es
    /\ validate (world (service unused unused) separatingPrinter)
                (options "my-project" None EmptyString EmptyString
                         EmptyString EmptyString)
       = Some (joinError (e :: es))
    /\ RunE (world (service unused unused) separatingPrinter)
            (options "my-project" None EmptyString EmptyString
                     EmptyString EmptyString) fresh
       = (fresh, Done (Some (joinError (e :: es)))).
Proof.
  apply (validate_rejects_missing
           unit (option Promotion)
           (world (service unused unused) separatingPrinter)
           (options "my-project" None EmptyString EmptyString
                    EmptyString EmptyString)
           fresh).
  reflexivity.
Defined.

(** C5 at scenario A. *)
Lemma stage_plain_prints_created_witness :
  RunE (world (service (stageCreated "promo-1") unused) separatingPrinter)
       (toQA None) fresh
  = ({| Out := "Promotion Created: " ++ quoted "promo-1" ++ newline;
        RPCs := [CallPromoteStage (stageRequest (toQA None))] |},
     Done None).
Proof.
  apply (stage_plain_prints_created
           unit (option Promotion)
           (world (service (stageCreated "promo-1") unused)
                  separatingPrinter)
           (toQA None)
           (service (stageCreated "promo-1") unused)
           {| Msg := Some {| Promotion_ := named "promo-1" |} |}
           "promo-1" fresh);
    reflexivity.
Defined.

(** C6 at scenario B, with a structured format. *)
Lemma stage_failure_is_wrapped_witness :
  RunE (world (service (None, Some E) unused) separatingPrinter)
       (toQA (Some "json")) fresh
  = ({| Out := EmptyString;
        RPCs := [CallPromoteStage (stageRequest (toQA (Some "json")))] |},
     Done (Some (WithMessage E "promote stage")))
  /\ Out (fst (RunE (world (service (None, Some E) unused)
                           separatingPrinter)
                    (toQA (Some "json")) fresh))
     = EmptyString.
Proof.
  apply (stage_failure_is_wrapped
           unit (option Promotion)
           (world (service (None, Some E) unused) separatingPrinter)
           (toQA (Some "json"))
           (service (None, Some E) unused)
           None E fresh);
    reflexivity.
Defined.

(** C8 at options with both selectors given. *)
Lemma stage_takes_precedence_witness :
  validate (world (service (stageCreated "promo-1") unused)
                  separatingPrinter)
           twoSelectors
  = None
  /\ RPCs (fst (run (world (service (stageCreated "promo-1") unused)
                           separatingPrinter)
                    twoSelectors fresh))
     = [CallPromoteStage (stageRequest twoSelectors)].
Proof.
  destruct (stage_takes_precedence
              unit (option Promotion)
              (world (service (stageCreated "promo-1") unused)
                     separatingPrinter)
              twoSelectors
              (service (stageCreated "promo-1") unused)
              fresh)
    as [Hvalidate Hcalls]; try reflexivity.
  split; [apply Hvalidate; reflexivity | exact Hcalls].
Defined.

(** C9 with a printer that fails on every object, in each branch. *)
Lemma print_errors_are_dropped_witness :
  snd (RunE (world (service (stageCreated "promo-1") unused) failingPrinter)
            (toQA (Some "json")) fresh)
  = Done None
  /\ snd (RunE (world (service unused
                               (subscribersCreated ["promo-2"; "promo-3"]
                                                   (Some E)))
                      failingPrinter)
               (toSubscribersOfQA (Some "json")) fresh)
     = Done (Some E).
Proof.
  split.
  - apply (proj1 (print_errors_are_dropped
                    unit (option Promotion)
                    (world (service (stageCreated "promo-1") unused)
                           failingPrinter)
                    (toQA (Some "json"))
                    (service (stageCreated "promo-1") unused)
                    failingPrinter fresh
                    eq_refl eq_refl eq_refl eq_refl)
                 {| Msg := Some {| Promotion_ := named "promo-1" |} |});
      reflexivity.
  - apply (proj2 (print_errors_are_dropped
                    unit (option Promotion)
                    (world (service unused
                                    (subscribersCreated
                                       ["promo-2"; "promo-3"] (Some E)))
                           failingPrinter)
                    (toSubscribersOfQA (Some "json"))
                    (service unused
                             (subscribersCreated
                                ["promo-2"; "promo-3"] (Some E)))
                    failingPrinter fresh
                    eq_refl eq_refl eq_refl eq_refl)
                 {| Msg := Some {| Promotions :=
                                     map named ["promo-2"; "promo-3"] |} |}
                 (Some E));
      reflexivity.
Defined.

(** C10 on a response whose promotions all have names, and on one whose
    second promotion came without metadata. *)
Lemma plain_loop_needs_names_witness :
  let env := world (service unused unused) separatingPrinter in
  subscribersOutput env (toSubscribersOfQA None)
                    (fst (subscribersCreated ["promo-2"; "promo-3"] None))
                    None fresh
  = (written fresh (createdLines env ["promo-2"; "promo-3"]), Done None)
  /\ snd (subscribersOutput env (toSubscribersOfQA None)
                            (fst (subscribersAnswered
                                    [named "promo-2"; nameless] None))
                            None fresh)
     = Panic
  /\ snd (stageOutput env (toQA None)
                      (Some {| Msg := Some {| Promotion_ := nameless |} |})
                      None fresh)
     = Done None.
Proof.
  cbv zeta. split; [|split].
  - destruct (proj1 (plain_loop_needs_names
                       unit (option Promotion)
                       (world (service unused unused) separatingPrinter)
                       (toSubscribersOfQA None)
                       (fst (subscribersCreated ["promo-2"; "promo-3"] None))
                       None fresh eq_refl) eq_refl)
      as (names & Hnames & Hrun).
    destruct names as [|n2 [|n3 [|n4 names]]]; try discriminate Hnames.
    injection Hnames as <- <-. exact Hrun.
  - apply (proj1 (proj2 (plain_loop_needs_names
                           unit (option Promotion)
                           (world (service unused unused) separatingPrinter)
                           (toSubscribersOfQA None)
                           (fst (subscribersAnswered
                                   [named "promo-2"; nameless] None))
                           None fresh eq_refl))).
    reflexivity.
  - apply (proj2 (proj2 (plain_loop_needs_names
                           unit (option Promotion)
                           (world (service unused unused) separatingPrinter)
                           (toQA None) None None fresh eq_refl))).
Defined.

End Runs.

(** * Further properties of the command *)

Section FurtherBlocks.

Variables CLIConfig KubePromotion : Type.
Variable env : Collaborators CLIConfig KubePromotion.

Lemma world_untouched (w : World) :
  {| Out := Out w ++ EmptyString; RPCs := RPCs w ++ [] |} = w.
Proof.
  destruct w as [out rpcs]; simpl.
  now rewrite append_empty_r, app_nil_r.
Qed.

Lemma written_called (w : World) (c : Call) (bytes : string) :
  written (called w c) bytes
  = {| Out := Out w ++ bytes; RPCs := RPCs w ++ [c] |}.
Proof. reflexivity. Qed.


(** The plain loop writes the lines of the promotions that come before
    the first one without a name, and panics there. *)
Lemma forRange_stops (before after : list (option Promotion))
      (p : option Promotion) :
  forall names,
    map nameOf before = map Some names ->
    nameOf p = None ->
    rendersOnly (forRange (before ++ p :: after) (printCreated env))
                (createdLines env names) Panic.
Proof.
  induction before as [|q before IH]; intros [|n names] Hnames Hp;
    simpl in Hnames; try discriminate.
  - cbn [app forRange createdLines].
    apply rendersOnly_bind_panic, printCreated_unnamed, Hp.
  - injection Hnames as Hq Hbefore. cbn [app forRange createdLines].
    eapply rendersOnly_bind;
      [apply printCreated_named, Hq | apply IH; assumption].
Qed.

(** The getters give the empty name for a promotion that has none. *)
Lemma getters_of_unnamed (p : option Promotion) :
  nameOf p = None -> GetName (GetMetadata p) = EmptyString.
Proof. destruct p as [[[[[n|]]|]]|]; simpl; (discriminate || reflexivity). Qed.

(** Options that pass validation name a stage one way or the other. *)
Lemma valid_has_selector (o : promotionOptions CLIConfig) :
  validate env o = None ->
  isEmpty (Stage o) = true -> isEmpty (SubscribersOf o) = false.
Proof.
  intros Hvalid Hstage. apply validate_accepts in Hvalid.
  unfold missesRequired in Hvalid. rewrite Hstage in Hvalid.
  destruct (isEmpty (SubscribersOf o)); [|reflexivity].
  now rewrite !orb_true_r in Hvalid.
Qed.

End FurtherBlocks.

Section FurtherProperties.

Variables CLIConfig KubePromotion : Type.
Variable env : Collaborators CLIConfig KubePromotion.

(** X1. [validate] returns nil exactly when the project is not empty, one
    of the two freight fields at least is not empty, and one of the two
    selector fields at least is not empty. *)
Theorem validate_passes_iff (o : promotionOptions CLIConfig) :
  validate env o = None
  <-> Project (Option_ o) <> EmptyString
      /\ (FreightName o <> EmptyString \/ FreightAlias o <> EmptyString)
      /\ (Stage o <> EmptyString \/ SubscribersOf o <> EmptyString).
Proof.
  rewrite validate_accepts. unfold missesRequired.
  rewrite <- !isEmpty_false.
  destruct (isEmpty (Project (Option_ o))), (isEmpty (FreightName o)),
    (isEmpty (FreightAlias o)), (isEmpty (Stage o)),
    (isEmpty (SubscribersOf o)); simpl; intuition discriminate.
Qed.

(** X2. The invariant of the data model (a project, exactly one freight
    field and exactly one selector field) holds exactly for the options
    that [validate] accepts and in which neither pair of fields is given
    twice; [validate] itself does not test the latter. *)
Theorem invariant_iff_valid_and_exclusive (o : promotionOptions CLIConfig) :
  breaksInvariant o = false
  <-> validate env o = None
      /\ isEmpty (FreightName o) || isEmpty (FreightAlias o) = true
      /\ isEmpty (Stage o) || isEmpty (SubscribersOf o) = true.
Proof.
  rewrite validate_accepts. unfold breaksInvariant, missesRequired.
  destruct (isEmpty (Project (Option_ o))), (isEmpty (FreightName o)),
    (isEmpty (FreightAlias o)), (isEmpty (Stage o)),
    (isEmpty (SubscribersOf o)); simpl; intuition discriminate.
Qed.

(** X3. Whatever the options and the collaborators, the command issues at
    most one remote call, only appends to the output, and what it calls,
    writes and returns does not depend on the output and the calls that
    came before. *)
Theorem command_calls_at_most_once (o : promotionOptions CLIConfig) :
  exists calls bytes c,
    length calls <= 1
    /\ forall w,
         RunE env o w
         = ({| Out := Out w ++ bytes; RPCs := RPCs w ++ calls |}, c).
Proof.
  unfold RunE. destruct (validate env o) as [e|].
  { exists [], EmptyString, (Done (Some e)). split; [repeat constructor|].
    intro w. unfold ret. now rewrite world_untouched. }
  unfold run.
  destruct (GetClientFromConfig env (Config o) (Option_ o)) as [cli|e].
  2:{ exists [], EmptyString, (Done (Some e)). split; [repeat constructor|].
      intro w. unfold ret. now rewrite world_untouched. }
  destruct (isEmpty (Stage o)); cbn [negb].
  - destruct (isEmpty (SubscribersOf o)); cbn [negb].
    + exists [], EmptyString, (Done None). split; [repeat constructor|].
      intro w. unfold ret. now rewrite world_untouched.
    + destruct (renders_subscribersOutput
                  _ _ env o
                  (fst (PromoteSubscribers cli (subscribersRequest o)))
                  (snd (PromoteSubscribers cli (subscribersRequest o))))
        as (bytes & c & H).
      exists [CallPromoteSubscribers (subscribersRequest o)], bytes, c.
      split; [repeat constructor|]. intro w.
      unfold bind, remote. cbn [fst snd]. now rewrite H.
  - destruct (renders_stageOutput
                _ _ env o
                (fst (PromoteStage cli (stageRequest o)))
                (snd (PromoteStage cli (stageRequest o))))
      as (bytes & c & H).
    exists [CallPromoteStage (stageRequest o)], bytes, c.
    split; [repeat constructor|]. intro w.
    unfold bind, remote. cbn [fst snd]. now rewrite H.
Qed.

(** X4. When no client can be made, the command returns the error of
    [GetClientFromConfig] as it came, having issued no remote call and
    written nothing. *)
Theorem client_error_is_returned_bare
        (o : promotionOptions CLIConfig) (err : error_value) (w : World) :
  validate env o = None ->
  GetClientFromConfig env (Config o) (Option_ o) = inr err ->
  RunE env o w = (w, Done (Some err)).
Proof.
  intros Hvalid Hcli. rewrite (RunE_valid _ _ env o Hvalid).
  unfold run. now rewrite Hcli.
Qed.

(** X5. On options that pass validation, and with a client in hand, the
    command issues exactly one remote call: the stage call when a target
    stage is given, the subscribers call otherwise. The end of [run] that
    returns nil without a call is never reached. *)
Theorem valid_options_call_once
        (o : promotionOptions CLIConfig) (cli : Client) (w : World) :
  validate env o = None ->
  GetClientFromConfig env (Config o) (Option_ o) = inl cli ->
  RPCs (fst (RunE env o w)) = RPCs w ++ [callOf o].
Proof.
  intros Hvalid Hcli. rewrite (RunE_valid _ _ env o Hvalid).
  unfold callOf. destruct (isEmpty (Stage o)) eqn:Hstage.
  - rewrite (run_subscribers _ _ env o cli w Hcli Hstage
                             (valid_has_selector _ _ env o Hvalid Hstage)).
    now rewrite renders_RPCs by apply renders_subscribersOutput.
  - rewrite (run_stage _ _ env o cli w Hcli Hstage).
    now rewrite renders_RPCs by apply renders_stageOutput.
Qed.

(** X6. In the single-stage branch with a structured format, when no
    printer can be made the command returns the error of [ToPrinter]
    wrapped with [new printer] and writes nothing, although the stage call
    was issued and succeeded; the response is not looked at. *)
Theorem stage_printer_error_after_call
        (o : promotionOptions CLIConfig) (cli : Client)
        (res : option (Response PromoteStageResponse))
        (printerErr : error_value) (w : World) :
  validate env o = None ->
  isEmpty (Stage o) = false ->
  plainOutput o = false ->
  ToPrinter env (PrintFlags (Option_ o)) = inr printerErr ->
  GetClientFromConfig env (Config o) (Option_ o) = inl cli ->
  PromoteStage cli (stageRequest o) = (res, None) ->
  RunE env o w
  = (called w (CallPromoteStage (stageRequest o)),
     Done (Some (WithMessage printerErr "new printer"))).
Proof.
  intros Hvalid Hstage Hplain Hprinter Hcli Hanswer.
  rewrite (RunE_valid _ _ env o Hvalid).
  rewrite (run_stage _ _ env o cli w Hcli Hstage), Hanswer. cbn [fst snd].
  unfold stageOutput. now rewrite Hplain, Hprinter.
Qed.

(** X7. In the subscribers branch with a structured format, when no
    printer can be made the command returns the error of [ToPrinter]
    wrapped with [new printer] and writes nothing: the promotions of the
    response are not shown and the error of the call, if any, is lost.
    This holds whatever the call answered, a missing response included. *)
Theorem subscribers_printer_error_hides_call_error
        (o : promotionOptions CLIConfig) (cli : Client)
        (res : option (Response PromoteSubscribersResponse))
        (promoteErr : error) (printerErr : error_value) (w : World) :
  validate env o = None ->
  isEmpty (Stage o) = true ->
  plainOutput o = false ->
  ToPrinter env (PrintFlags (Option_ o)) = inr printerErr ->
  GetClientFromConfig env (Config o) (Option_ o) = inl cli ->
  PromoteSubscribers cli (subscribersRequest o) = (res, promoteErr) ->
  RunE env o w
  = (called w (CallPromoteSubscribers (subscribersRequest o)),
     Done (Some (WithMessage printerErr "new printer"))).
Proof.
  intros Hvalid Hstage Hplain Hprinter Hcli Hanswer.
  rewrite (RunE_valid _ _ env o Hvalid).
  rewrite (run_subscribers _ _ env o cli w Hcli Hstage
                           (valid_has_selector _ _ env o Hvalid Hstage)).
  rewrite Hanswer. cbn [fst snd].
  unfold subscribersOutput. now rewrite Hplain, Hprinter.
Qed.

(** X8. In the single-stage branch with a structured format and a printer
    in hand, after a successful call the command writes exactly what the
    fresh printer writes for the converted promotion of the response, and
    returns nil. *)
Theorem stage_structured_prints_object
        (o : promotionOptions CLIConfig) (cli : Client)
        (printer : Printer KubePromotion)
        (res : Response PromoteStageResponse) (w : World) :
  validate env o = None ->
  isEmpty (Stage o) = false ->
  plainOutput o = false ->
  ToPrinter env (PrintFlags (Option_ o)) = inl printer ->
  GetClientFromConfig env (Config o) (Option_ o) = inl cli ->
  PromoteStage cli (stageRequest o) = (Some res, None) ->
  RunE env o w
  = (written (called w (CallPromoteStage (stageRequest o)))
             (printedBytes printer []
                [FromPromotionProto env (GetPromotion (Msg res))]),
     Done None).
Proof.
  intros Hvalid Hstage Hplain Hprinter Hcli Hanswer.
  rewrite (RunE_valid _ _ env o Hvalid).
  rewrite (run_stage _ _ env o cli w Hcli Hstage), Hanswer. cbn [fst snd].
  rewrite (stageOutput_structured _ _ env o printer res Hplain Hprinter).
  cbn [printedBytes]. now rewrite append_empty_r.
Qed.


(** X10. In the subscribers branch in plain mode, when a promotion of the
    response has no name (it is nil, or its metadata or its name is), the
    command writes the lines of the promotions that come before it and
    panics there: the promotions after it are not shown and the error of
    the call is not returned. *)
Theorem plain_loop_stops_at_nameless
        (o : promotionOptions CLIConfig) (cli : Client)
        (m : PromoteSubscribersResponse) (promoteErr : error)
        (before after : list (option Promotion)) (p : option Promotion)
        (names : list string) (w : World) :
  validate env o = None ->
  isEmpty (Stage o) = true ->
  plainOutput o = true ->
  GetClientFromConfig env (Config o) (Option_ o) = inl cli ->
  PromoteSubscribers cli (subscribersRequest o)
  = (Some {| Msg := Some m |}, promoteErr) ->
  Promotions m = before ++ p :: after ->
  map nameOf before = map Some names ->
  nameOf p = None ->
  RunE env o w
  = (written (called w (CallPromoteSubscribers (subscribersRequest o)))
             (createdLines env names),
     Panic).
Proof.
  intros Hvalid Hstage Hplain Hcli Hanswer Hsplit Hnames Hp.
  rewrite (RunE_valid _ _ env o Hvalid).
  rewrite (run_subscribers _ _ env o cli w Hcli Hstage
                           (valid_has_selector _ _ env o Hvalid Hstage)).
  rewrite Hanswer. cbn [fst snd].
  unfold subscribersOutput. rewrite Hplain. cbn [GetPromotions].
  rewrite Hsplit.
  now rewrite (rendersOnly_bind_panic
                 _ _ _ (forRange_stops _ _ env before after p names
                                       Hnames Hp)).
Qed.



(** X13. In the single-stage branch in plain mode, when the call succeeds
    with a response whose promotion has no name (the message, the
    promotion, its metadata or its name is nil), the command still
    reports a creation: it writes the line with the empty name and
    returns nil. *)
Theorem stage_plain_prints_empty_name
        (o : promotionOptions CLIConfig) (cli : Client)
        (res : Response PromoteStageResponse) (w : World) :
  validate env o = None ->
  isEmpty (Stage o) = false ->
  plainOutput o = true ->
  GetClientFromConfig env (Config o) (Option_ o) = inl cli ->
  PromoteStage cli (stageRequest o) = (Some res, None) ->
  nameOf (GetPromotion (Msg res)) = None ->
  RunE env o w
  = (written (called w (CallPromoteStage (stageRequest o)))
             (promotionCreated env EmptyString),
     Done None).
Proof.
  intros Hvalid Hstage Hplain Hcli Hanswer Hname.
  rewrite (RunE_valid _ _ env o Hvalid).
  rewrite (run_stage _ _ env o cli w Hcli Hstage), Hanswer. cbn [fst snd].
  rewrite (stageOutput_plain _ _ env o res Hplain).
  now rewrite (getters_of_unnamed _ Hname).
Qed.

End FurtherProperties.

(** ** The further properties at concrete inputs *)

Module FurtherRuns.

Import Scenarios.

(** X4 with no server configured. *)
Lemma client_error_is_returned_bare_witness :
  RunE (collaborators (inr noServer) (inl separatingPrinter))
       (toQA None) fresh
  = (fresh, Done (Some noServer)).
Proof.
  apply (client_error_is_returned_bare
           unit (option Promotion)
           (collaborators (inr noServer) (inl separatingPrinter))
           (toQA None) noServer fresh);
    reflexivity.
Defined.

(** X5 at scenario A and at scenario C. *)
Lemma valid_options_call_once_witness :
  RPCs (fst (RunE (world (service (stageCreated "promo-1") unused)
                         separatingPrinter)
                  (toQA None) fresh))
  = [CallPromoteStage (stageRequest (toQA None))]
  /\ RPCs (fst (RunE (world (service unused
                                     (subscribersCreated
                                        ["promo-2"; "promo-3"] (Some E)))
                            separatingPrinter)
                     (toSubscribersOfQA None) fresh))
     = [CallPromoteSubscribers (subscribersRequest (toSubscribersOfQA None))].
Proof.
  split.
  - apply (valid_options_call_once
             unit (option Promotion)
             (world (service (stageCreated "promo-1") unused)
                    separatingPrinter)
             (toQA None)
             (service (stageCreated "promo-1") unused) fresh);
      reflexivity.
  - apply (valid_options_call_once
             unit (option Promotion)
             (world (service unused
                             (subscribersCreated ["promo-2"; "promo-3"]
                                                 (Some E)))
                    separatingPrinter)
             (toSubscribersOfQA None)
             (service unused
                      (subscribersCreated ["promo-2"; "promo-3"] (Some E)))
             fresh);
      reflexivity.
Defined.

(** X6 at scenario A with a format no printer exists for. *)
Lemma stage_printer_error_after_call_witness :
  RunE (collaborators (inl (service (stageCreated "promo-1") unused))
                      (inr noSuchFormat))
       (toQA (Some "xml")) fresh
  = ({| Out := EmptyString;
        RPCs := [CallPromoteStage (stageRequest (toQA (Some "xml")))] |},
     Done (Some (WithMessage noSuchFormat "new printer"))).
Proof.
  apply (stage_printer_error_after_call
           unit (option Promotion)
           (collaborators (inl (service (stageCreated "promo-1") unused))
                          (inr noSuchFormat))
           (toQA (Some "xml"))
           (service (stageCreated "promo-1") unused)
           (fst (stageCreated "promo-1")) noSuchFormat fresh);
    reflexivity.
Defined.

(** X7 at scenario C with a format no printer exists for. *)
Lemma subscribers_printer_error_hides_call_error_witness :
  RunE (collaborators
          (inl (service unused
                        (subscribersCreated ["promo-2"; "promo-3"]
                                            (Some E))))
          (inr noSuchFormat))
       (toSubscribersOfQA (Some "xml")) fresh
  = ({| Out := EmptyString;
        RPCs := [CallPromoteSubscribers
                   (subscribersRequest (toSubscribersOfQA (Some "xml")))] |},
     Done (Some (WithMessage noSuchFormat "new printer"))).
Proof.
  apply (subscribers_printer_error_hides_call_error
           unit (option Promotion)
           (collaborators
              (inl (service unused
                            (subscribersCreated ["promo-2"; "promo-3"]
                                                (Some E))))
              (inr noSuchFormat))
           (toSubscribersOfQA (Some "xml"))
           (service unused
                    (subscribersCreated ["promo-2"; "promo-3"] (Some E)))
           (fst (subscribersCreated ["promo-2"; "promo-3"] (Some E)))
           (Some E) noSuchFormat fresh);
    reflexivity.
Defined.

(** X8 at scenario A with a structured format. *)
Lemma stage_structured_prints_object_witness :
  RunE (world (service (stageCreated "promo-1") unused) separatingPrinter)
       (toQA (Some "yaml")) fresh
  = ({| Out := "promo-1" ++ newline;
        RPCs := [CallPromoteStage (stageRequest (toQA (Some "yaml")))] |},
     Done None).
Proof.
  apply (stage_structured_prints_object
           unit (option Promotion)
           (world (service (stageCreated "promo-1") unused)
                  separatingPrinter)
           (toQA (Some "yaml"))
           (service (stageCreated "promo-1") unused)
           separatingPrinter
           {| Msg := Some {| Promotion_ := named "promo-1" |} |} fresh);
    reflexivity.
Defined.


(** X10 on the same response in plain mode. *)
Lemma plain_loop_stops_at_nameless_witness :
  RunE (world (service unused
                       (subscribersAnswered
                          [named "promo-2"; nameless; named "promo-3"]
                          (Some E)))
              separatingPrinter)
       (toSubscribersOfQA None) fresh
  = ({| Out := "Promotion Created: " ++ quoted "promo-2" ++ newline;
        RPCs := [CallPromoteSubscribers
                   (subscribersRequest (toSubscribersOfQA None))] |},
     Panic).
Proof.
  apply (plain_loop_stops_at_nameless
           unit (option Promotion)
           (world (service unused
                           (subscribersAnswered
                              [named "promo-2"; nameless; named "promo-3"]
                              (Some E)))
                  separatingPrinter)
           (toSubscribersOfQA None)
           (service unused
                    (subscribersAnswered
                       [named "promo-2"; nameless; named "promo-3"]
                       (Some E)))
           {| Promotions := [named "promo-2"; nameless; named "promo-3"] |}
           (Some E)
           [named "promo-2"] [named "promo-3"] nameless
           ["promo-2"] fresh);
    reflexivity.
Defined.

(** X13 on a successful stage call whose response holds no promotion. *)
Lemma stage_plain_prints_empty_name_witness :
  RunE (world (service stageAnsweredEmpty unused) separatingPrinter)
       (toQA None) fresh
  = ({| Out := "Promotion Created: " ++ quoted EmptyString ++ newline;
        RPCs := [CallPromoteStage (stageRequest (toQA None))] |},
     Done None).
Proof.
  apply (stage_plain_prints_empty_name
           unit (option Promotion)
           (world (service stageAnsweredEmpty unused) separatingPrinter)
           (toQA None)
           (service stageAnsweredEmpty unused)
           {| Msg := Some {| Promotion_ := None |} |} fresh);
    reflexivity.
Defined.

End FurtherRuns.
